(** * Timetable-automation backend: configuration loader and OpenAI service

    A shallow embedding of the two modules of the backend,

      - [src/config/index.js]   (the [config] object and [validateConfig]),
      - the [OpenAIService] class (generateText, generateTextStream, chat,
        analyzeTimetable),

    followed by the properties their specification states about them.

    JavaScript values are embedded as a first-order data type, [process.env]
    as a finite map from names to strings, and the effects of the service
    methods (requests sent upstream, lines written with [console.error],
    thrown errors) through a small state-and-exception monad over a [World]
    that also holds the two module-level singletons. *)

From Stdlib Require Import SpecFloat.
From stdpp Require Import base option list strings pretty gmap.

Open Scope string_scope.
Set Warnings "-register-all".

(* ===================================================================== *)
(** * JavaScript values *)
(* ===================================================================== *)

(** A JS number is an IEEE-754 binary64 value; [spec_float] is the Standard
    Library's description of those ([S754_finite s m e] is (-1)^s * m * 2^e).
    The program never computes with numbers, it only tests and forwards
    them. *)
Definition JsNumber := spec_float.

(** Plain data values: what a request handler receives from a JSON body,
    together with [undefined] (an omitted argument or an absent property)
    and the non-JSON numbers.  Objects keep their properties in insertion
    order, the order in which an object literal lists them. *)
Inductive JsValue : Type :=
  | JUndefined
  | JNull
  | JBool (b : bool)
  | JNum (n : JsNumber)
  | JStr (s : string)
  | JArr (items : list JsValue)
  | JObj (props : list (string * JsValue)).

(** The numeric literals of the source, as binary64 values with a 53-bit
    mantissa: 1000 = (1000 * 2^43) * 2^-43 and 3000 = (3000 * 2^41) * 2^-41. *)
Definition num_1000 : JsNumber := S754_finite false (1000 * 2 ^ 43) (-43).
Definition num_3000 : JsNumber := S754_finite false (3000 * 2 ^ 41) (-41).
(** [0.7] is the double nearest to it, 0x1.6666666666666p-1. *)
Definition num_0_7 : JsNumber := S754_finite false 6305039478318694 (-53).
Definition num_0 : JsNumber := S754_zero false.

(** ToBoolean: [undefined], [null], [false], [+0], [-0], [NaN] and the empty
    string are falsy, every other value is truthy. *)
Definition truthy (v : JsValue) : bool :=
  match v with
  | JUndefined | JNull => false
  | JBool b => b
  | JNum (S754_zero _) | JNum S754_nan => false
  | JNum _ => true
  | JStr s => negb (String.eqb s "")
  | JArr _ | JObj _ => true
  end.

(** [a || b] on values (both operands of every [||] in the source are free
    of effects once evaluated). *)
Definition js_or (a b : JsValue) : JsValue := if truthy a then a else b.

(** A default parameter value, [function f(x = d)]: used when the argument
    is [undefined], which is also what an omitted argument is. *)
Definition default_param (arg d : JsValue) : JsValue :=
  match arg with
  | JUndefined => d
  | _ => arg
  end.

(** [v === 'literal']: strict equality with a string literal. *)
Definition strict_eq_str (v : JsValue) (lit : string) : bool :=
  match v with
  | JStr s => String.eqb s lit
  | _ => false
  end.

(** Own-property lookup in an object. *)
Fixpoint lookup_prop (k : string) (props : list (string * JsValue)) : option JsValue :=
  match props with
  | [] => None
  | (k', v) :: rest => if String.eqb k k' then Some v else lookup_prop k rest
  end.

(** Values that can be thrown: error objects ([new Error(msg)], the engine's
    [TypeError], the SDK's API and connection errors) and any other value. *)
Inductive Thrown : Type :=
  | JsError (name : string) (message : string)
  | JsThrow (v : JsValue).

Definition new_Error (message : string) : Thrown := JsError "Error" message.

(** The message text of an engine-raised [TypeError] differs between engines
    and is not observed by the program. *)
Definition TypeError (message : string) : Thrown := JsError "TypeError" message.

(** The completion of evaluating an expression or of awaiting a promise. *)
Inductive Outcome (A : Type) : Type :=
  | Return (a : A)
  | Throw (t : Thrown).
Arguments Return {A} a.
Arguments Throw {A} t.

(** [v.name] for the property names the program reads ([model], [maxTokens],
    [temperature], [choices], [message], [content]).  None of those is a
    property of arrays or of primitive values, so reading them there gives
    [undefined]; reading from [undefined] or [null] throws. *)
Definition get_prop (v : JsValue) (name : string) : Outcome JsValue :=
  match v with
  | JUndefined | JNull => Throw (TypeError "Cannot read properties of undefined or null")
  | JObj props => Return (default JUndefined (lookup_prop name props))
  | _ => Return JUndefined
  end.

(** [v[i]] for a numeric index. *)
Definition get_index (v : JsValue) (i : nat) : Outcome JsValue :=
  match v with
  | JUndefined | JNull => Throw (TypeError "Cannot read properties of undefined or null")
  | JArr items => Return (default JUndefined (items !! i))
  | JStr s => Return (from_option (fun c => JStr (String c "")) JUndefined (String.get i s))
  | JObj props => Return (default JUndefined (lookup_prop (pretty i) props))
  | _ => Return JUndefined
  end.

(** The elements produced by spreading a value into an array literal,
    [[...v]]: arrays and strings are iterable, the other values are not. *)
Definition spread (v : JsValue) : Outcome (list JsValue) :=
  match v with
  | JArr items => Return items
  | JStr s => Return ((fun c => JStr (String c "")) <$> String.list_ascii_of_string s)
  | _ => Throw (TypeError "value is not iterable")
  end.

(** [`${v}`] for the result of [JSON.stringify], which is a string or
    [undefined]. *)
Definition template_string (v : option string) : string :=
  match v with
  | Some s => s
  | None => "undefined"
  end.

(* ===================================================================== *)
(** * Configuration: src/config/index.js *)
(* ===================================================================== *)

Module Config.

(** [process.env.NAME]; [env] is [process.env] after [dotenv.config()],
    where every value is a string. *)
Definition env_get (env : gmap string string) (name : string) : JsValue :=
  match env !! name with
  | Some s => JStr s
  | None => JUndefined
  end.

Record OpenAISection := { apiKey : JsValue }.
Record CorsSection := { origin : JsValue }.

Record Config := {
  port : JsValue;
  nodeEnv : JsValue;
  openai : OpenAISection;
  cors : CorsSection;
}.

(** [const config = { ... }], evaluated when the module is loaded. *)
Definition config (env : gmap string string) : Config :=
  {| port := js_or (env_get env "PORT") (JNum num_3000);
     nodeEnv := js_or (env_get env "NODE_ENV") (JStr "development");
     openai := {| apiKey := env_get env "OPENAI_API_KEY" |};
     cors := {| origin := js_or (env_get env "CORS_ORIGIN") (JStr "http://localhost:5173") |} |}.

(** [const requiredVars = ['OPENAI_API_KEY']] *)
Definition requiredVars : list string := ["OPENAI_API_KEY"].

(** [l.join(sep)] on an array of strings. *)
Definition join (sep : string) (l : list string) : string := String.concat sep l.

End Config.

(* ===================================================================== *)
(** * The world the two modules run in *)
(* ===================================================================== *)

(** The handle made by [new OpenAI({ apiKey })]. *)
Record OpenAIClient := { client_apiKey : JsValue }.

(** The fields of an [OpenAIService] instance. *)
Record OpenAIService := {
  openai : OpenAIClient;
  model : JsValue;
}.

(** What the program does to the outside: a request handed to
    [chat.completions.create] on a client, a line written with
    [console.error]. *)
Inductive Event : Type :=
  | Request (client : OpenAIClient) (body : JsValue)
  | ConsoleError (label : string) (error : Thrown).

(** [process.env], the [config] object exported by the configuration
    module, the service instance exported by the service module, and the
    events so far, oldest first. *)
Record World := {
  w_env : gmap string string;
  w_config : Config.Config;
  w_service : OpenAIService;
  w_trace : list Event;
}.

(** What the program takes from its host: the SDK's
    [chat.completions.create], as the settled value of the promise it
    returns for a client and a request body, and the built-in
    [JSON.stringify], which on the acyclic data of [JsValue] always
    completes, with a string or with [undefined]. *)
Class Runtime := {
  completions_create : OpenAIClient -> JsValue -> Outcome JsValue;
  JSON_stringify : JsValue -> option string;
}.

(** Computations: they read and extend the world and return or throw. *)
Definition M (A : Type) : Type := World -> Outcome A * World.

#[export] Instance M_ret : MRet M := fun A a w => (Return a, w).

#[export] Instance M_bind : MBind M := fun A B f m w =>
  match m w with
  | (Return a, w') => f a w'
  | (Throw t, w') => (Throw t, w')
  end.

(** [throw t] *)
Definition throw {A} (t : Thrown) : M A := fun w => (Throw t, w).

(** Evaluation of an expression that has no effect but may throw. *)
Definition eval {A} (o : Outcome A) : M A := fun w => (o, w).

(** [try { body } catch (error) { handler }] *)
Definition try_catch {A} (body : M A) (handler : Thrown -> M A) : M A := fun w =>
  match body w with
  | (Return a, w') => (Return a, w')
  | (Throw t, w') => handler t w'
  end.

(** The world after some more events. *)
Definition extend (w : World) (events : list Event) : World :=
  {| w_env := w_env w; w_config := w_config w; w_service := w_service w;
     w_trace := w_trace w ++ events |}.

Definition emit (e : Event) : M unit := fun w => (Return tt, extend w [e]).

(** The request bodies among some events, in order. *)
Definition requests (events : list Event) : list JsValue :=
  omap (fun e => match e with
                 | Request _ body => Some body
                 | ConsoleError _ _ => None
                 end) events.

(** [console.error(label, error)] *)
Definition console_error (label : string) (error : Thrown) : M unit :=
  emit (ConsoleError label error).

(** [this] inside a method of the exported instance. *)
Definition get_this : M OpenAIService := fun w => (Return (w_service w), w).

(** [process.env] *)
Definition get_env : M (gmap string string) := fun w => (Return (w_env w), w).

(** [await client.chat.completions.create(body)]: the request goes out, and
    a rejected promise is thrown at the [await]. *)
Definition await_create `{R : Runtime} (client : OpenAIClient) (body : JsValue) : M JsValue :=
  emit (Request client body);; eval (completions_create client body).

(* ===================================================================== *)
(** * validateConfig *)
(* ===================================================================== *)

Definition validateConfig : M unit :=
  let requiredVars := Config.requiredVars in
  env ← get_env;
  let missingVars :=
    List.filter (fun varName => negb (truthy (Config.env_get env varName))) requiredVars in
  if (0 <? length missingVars)%nat
  then throw (new_Error ("Missing required environment variables: "
                         +:+ Config.join ", " missingVars))
  else mret tt.

(* ===================================================================== *)
(** * OpenAIService *)
(* ===================================================================== *)

(** [constructor()], reading the imported [config]. *)
Definition constructor (config : Config.Config) : OpenAIService :=
  {| openai := {| client_apiKey := Config.apiKey (Config.openai config) |};
     model := JStr "gpt-4o-mini" |}.

(** [{ role: 'user', content: c }] *)
Definition user_message (c : JsValue) : JsValue :=
  JObj [("role", JStr "user"); ("content", c)].

(** [completion.choices[0].message.content] *)
Definition first_content (completion : JsValue) : Outcome JsValue :=
  match get_prop completion "choices" with
  | Throw t => Throw t
  | Return choices =>
      match get_index choices 0 with
      | Throw t => Throw t
      | Return choice =>
          match get_prop choice "message" with
          | Throw t => Throw t
          | Return message => get_prop message "content"
          end
      end
  end.

Section Service.
Context `{R : Runtime}.

Definition generateText (prompt options : JsValue) : M JsValue :=
  let options := default_param options (JObj []) in
  try_catch
    (this ← get_this;
     options_model ← eval (get_prop options "model");
     options_maxTokens ← eval (get_prop options "maxTokens");
     options_temperature ← eval (get_prop options "temperature");
     completion ← await_create (openai this) (JObj [
       ("model", js_or options_model (model this));
       ("messages", JArr [user_message prompt]);
       ("max_tokens", js_or options_maxTokens (JNum num_1000));
       ("temperature", js_or options_temperature (JNum num_0_7))]);
     eval (first_content completion))
    (fun error =>
       console_error "Error generating text with OpenAI:" error;;
       throw (new_Error "Failed to generate text response")).

Definition generateTextStream (prompt : JsValue) : M JsValue :=
  try_catch
    (this ← get_this;
     stream ← await_create (openai this) (JObj [
       ("model", model this);
       ("messages", JArr [user_message prompt]);
       ("stream", JBool true)]);
     mret stream)
    (fun error =>
       console_error "Error generating streaming text with OpenAI:" error;;
       throw (new_Error "Failed to generate streaming response")).

Definition chat (history message : JsValue) : M JsValue :=
  let history := default_param history (JArr []) in
  try_catch
    (this ← get_this;
     spread_history ← eval (spread history);
     let messages := JArr (spread_history ++ [user_message message]) in
     completion ← await_create (openai this) (JObj [
       ("model", model this);
       ("messages", messages);
       ("max_tokens", JNum num_1000)]);
     eval (first_content completion))
    (fun error =>
       console_error "Error in chat with OpenAI:" error;;
       throw (new_Error "Failed to process chat message")).

(** The [switch] of [analyzeTimetable]: the prompt for an analysis type. *)
Definition analysis_prompt (timetableData analysisType : JsValue) : string :=
  if strict_eq_str analysisType "conflicts" then
    "Analyze the following timetable data for scheduling conflicts and provide recommendations: "
      +:+ template_string (JSON_stringify timetableData)
  else if strict_eq_str analysisType "optimization" then
    "Suggest optimizations for the following timetable to improve efficiency: "
      +:+ template_string (JSON_stringify timetableData)
  else if strict_eq_str analysisType "load" then
    "Analyze the workload distribution in this timetable and suggest improvements: "
      +:+ template_string (JSON_stringify timetableData)
  else
    "Provide a general analysis of this timetable data: "
      +:+ template_string (JSON_stringify timetableData).

Definition analyzeTimetable (timetableData analysisType : JsValue) : M JsValue :=
  let analysisType := default_param analysisType (JStr "general") in
  try_catch
    (let prompt := analysis_prompt timetableData analysisType in
     generateText (JStr prompt) JUndefined)
    (fun error =>
       console_error "Error analyzing timetable:" error;;
       throw (new_Error "Failed to analyze timetable data")).

End Service.

(* ===================================================================== *)
(** * Module load and sample hosts *)
(* ===================================================================== *)

(** The world once both modules are loaded: [config] is read from the
    environment and the service instance is constructed from it. *)
Definition module_load (env : gmap string string) : World :=
  {| w_env := env;
     w_config := Config.config env;
     w_service := constructor (Config.config env);
     w_trace := [] |}.

(** A completion object carrying one choice. *)
Definition completion_of (content : JsValue) : JsValue :=
  JObj [("choices",
         JArr [JObj [("index", JNum num_0);
                     ("message", JObj [("role", JStr "assistant");
                                       ("content", content)])]])].

(** A stand-in for [JSON.stringify] in the examples: it is right on
    [undefined], [null], the booleans and the empty array and object, the
    only values the examples serialize. *)
Definition sample_stringify (v : JsValue) : option string :=
  match v with
  | JUndefined => None
  | JNull => Some "null"
  | JBool true => Some "true"
  | JBool false => Some "false"
  | JArr [] => Some "[]"
  | _ => Some "{}"
  end.

(** A host whose upstream answers every request with the same text. *)
Definition answering (content : string) : Runtime :=
  {| completions_create := fun _ _ => Return (completion_of (JStr content));
     JSON_stringify := sample_stringify |}.

(** A host whose upstream rejects every request. *)
Definition failing (reason : Thrown) : Runtime :=
  {| completions_create := fun _ _ => Throw reason;
     JSON_stringify := sample_stringify |}.

(** A computation that leaves the environment, the configuration and the
    service instance as they were and only adds events. *)
Definition appends_only {A} (m : M A) : Prop :=
  forall w, exists events, (m w).2 = extend w events.


(** A computation that only adds events, at most [n] of them requests. *)
Definition sends_at_most {A} (n : nat) (m : M A) : Prop :=
  forall w, exists new : list Event,
    (m w).2 = extend w new /\ (length (requests new) <= n)%nat.

(* ===================================================================== *)
(** * Properties *)
(* ===================================================================== *)

(** ** Basic facts about values and worlds *)

Lemma extend_extend (w : World) (es1 es2 : list Event) :
  extend (extend w es1) es2 = extend w (es1 ++ es2).
Proof. unfold extend; simpl. by rewrite <- app_assoc. Qed.

Lemma extend_nil (w : World) : extend w [] = w.
Proof. destruct w; unfold extend; simpl. by rewrite app_nil_r. Qed.

Lemma js_or_truthy (a b : JsValue) : truthy a = true -> js_or a b = a.
Proof. unfold js_or. by intros ->. Qed.

Lemma env_get_truthy (env : gmap string string) (name : string) :
  truthy (Config.env_get env name) = true <->
  exists s, env !! name = Some s /\ s <> "".
Proof.
  unfold Config.env_get. destruct (env !! name) as [s|]; simpl.
  - destruct (String.eqb_spec s ""); simpl; split.
    + done.
    + intros (s' & [= <-] & Hne). done.
    + intros _. by exists s.
    + done.
  - split; [done | by intros (s & ? & _)].
Qed.

Section ServiceFacts.
Context `{R : Runtime}.

(** What [generateText] does when [options] is an object: one request,
    then the content of the completion or the generic error. *)
Lemma generateText_object (prompt : JsValue) (props : list (string * JsValue)) (w : World) :
  let this := w_service w in
  let body := JObj [
    ("model", js_or (default JUndefined (lookup_prop "model" props)) (model this));
    ("messages", JArr [user_message prompt]);
    ("max_tokens", js_or (default JUndefined (lookup_prop "maxTokens" props)) (JNum num_1000));
    ("temperature", js_or (default JUndefined (lookup_prop "temperature" props)) (JNum num_0_7))] in
  generateText prompt (JObj props) w =
    match completions_create (openai this) body with
    | Return completion =>
        match first_content completion with
        | Return content => (Return content, extend w [Request (openai this) body])
        | Throw error =>
            (Throw (new_Error "Failed to generate text response"),
             extend w [Request (openai this) body;
                       ConsoleError "Error generating text with OpenAI:" error])
        end
    | Throw error =>
        (Throw (new_Error "Failed to generate text response"),
         extend w [Request (openai this) body;
                   ConsoleError "Error generating text with OpenAI:" error])
    end.
Proof.
  intros this body.
  unfold generateText, try_catch, await_create, console_error, emit, eval,
    throw, get_this, mbind, M_bind; simpl.
  fold this. fold body.
  destruct (completions_create (openai this) body) as [completion|error]; simpl.
  - destruct (first_content completion) as [content|error]; simpl; [done|].
    by rewrite extend_extend.
  - by rewrite extend_extend.
Qed.

Lemma generateText_omitted (prompt : JsValue) (w : World) :
  generateText prompt JUndefined w = generateText prompt (JObj []) w.
Proof. reflexivity. Qed.

End ServiceFacts.

(** ** generateText: the request and the result *)

(** C1 (as amended). For every prompt string and every options record,
    [generateText] sends exactly one request: one user message holding the
    prompt; [model] is [options.model] when that holds a truthy value and
    "gpt-4o-mini" when the key is unset or holds the empty string;
    [max_tokens] is [options.maxTokens] when truthy and 1000 when unset;
    [temperature] is [options.temperature] when truthy and 0.7 when unset.
    When the upstream call is fulfilled and the completion has a first
    choice, its message content is returned as it is.  Omitting [options]
    is passing the empty record. *)
Theorem generateText_request_and_result `{R : Runtime}
    (p : string) (props : list (string * JsValue)) (w : World) :
  w_service w = constructor (w_config w) ->
  exists (m mt t : JsValue) (logged : list Event),
    let client := openai (w_service w) in
    let body := JObj [
      ("model", m);
      ("messages", JArr [JObj [("role", JStr "user"); ("content", JStr p)]]);
      ("max_tokens", mt);
      ("temperature", t)] in
    (generateText (JStr p) (JObj props) w).2 = extend w (Request client body :: logged) /\
    requests logged = [] /\
    (lookup_prop "model" props = None -> m = JStr "gpt-4o-mini") /\
    (lookup_prop "model" props = Some (JStr "") -> m = JStr "gpt-4o-mini") /\
    (forall v, lookup_prop "model" props = Some v -> truthy v = true -> m = v) /\
    (lookup_prop "maxTokens" props = None -> mt = JNum num_1000) /\
    (forall v, lookup_prop "maxTokens" props = Some v -> truthy v = true -> mt = v) /\
    (lookup_prop "temperature" props = None -> t = JNum num_0_7) /\
    (forall v, lookup_prop "temperature" props = Some v -> truthy v = true -> t = v) /\
    (forall completion content,
        completions_create client body = Return completion ->
        first_content completion = Return content ->
        (generateText (JStr p) (JObj props) w).1 = Return content) /\
    generateText (JStr p) JUndefined w = generateText (JStr p) (JObj []) w.
Proof.
  intros Hsvc.
  pose proof (generateText_object (JStr p) props w) as Hrun; simpl in Hrun.
  set (m := js_or (default JUndefined (lookup_prop "model" props)) (model (w_service w))) in *.
  set (mt := js_or (default JUndefined (lookup_prop "maxTokens" props)) (JNum num_1000)) in *.
  set (t := js_or (default JUndefined (lookup_prop "temperature" props)) (JNum num_0_7)) in *.
  assert (Hmodel : model (w_service w) = JStr "gpt-4o-mini") by (by rewrite Hsvc).
  set (body := JObj [("model", m); ("messages", JArr [user_message (JStr p)]);
                     ("max_tokens", mt); ("temperature", t)]) in *.
  exists m, mt, t.
  exists (match completions_create (openai (w_service w)) body with
          | Return completion =>
              match first_content completion with
              | Return _ => []
              | Throw error => [ConsoleError "Error generating text with OpenAI:" error]
              end
          | Throw error => [ConsoleError "Error generating text with OpenAI:" error]
          end).
  cbv zeta. fold (user_message (JStr p)). fold body.
  repeat split.
  - rewrite Hrun.
    destruct (completions_create _ body) as [c|e]; [destruct (first_content c)|]; done.
  - destruct (completions_create _ body) as [c|e]; [destruct (first_content c)|]; done.
  - intros Hk. subst m. by rewrite Hk, <- Hmodel.
  - intros Hk. subst m. by rewrite Hk, <- Hmodel.
  - intros v Hk Hv. subst m. rewrite Hk. by apply js_or_truthy.
  - intros Hk. subst mt. by rewrite Hk.
  - intros v Hk Hv. subst mt. rewrite Hk. by apply js_or_truthy.
  - intros Hk. subst t. by rewrite Hk.
  - intros v Hk Hv. subst t. rewrite Hk. by apply js_or_truthy.
  - intros c v Hc Hv. by rewrite Hrun, Hc, Hv.
Qed.

Lemma generateText_request_and_result_witness :
  let w := module_load {["OPENAI_API_KEY" := "sk-test"]} in
  w_service w = constructor (w_config w) /\
  (generateText (R := answering "Hi there") (JStr "hello") (JObj []) w).1
    = Return (JStr "Hi there").
Proof.
  intros w. split; [reflexivity|].
  destruct (generateText_request_and_result (R := answering "Hi there")
              "hello" [] w eq_refl)
    as (m & mt & t & logged & _ & _ & _ & _ & _ & _ & _ & _ & _ & Hres & _).
  exact (Hres _ _ eq_refl eq_refl).
Defined.

(** C1 as stated fails: with [options = { model: '', maxTokens: 0,
    temperature: 0 }] all three keys are set, yet the request carries the
    three defaults, none of which is the value that was set. *)
Lemma generateText_set_keys_fall_back :
  let w := module_load {["OPENAI_API_KEY" := "sk-test"]} in
  let options := JObj [("model", JStr ""); ("maxTokens", JNum num_0);
                       ("temperature", JNum num_0)] in
  requests (w_trace (generateText (R := answering "Hi there") (JStr "hello") options w).2)
    = [JObj [("model", JStr "gpt-4o-mini");
             ("messages", JArr [JObj [("role", JStr "user"); ("content", JStr "hello")]]);
             ("max_tokens", JNum num_1000);
             ("temperature", JNum num_0_7)]]
  /\ JStr "gpt-4o-mini" <> JStr ""
  /\ JNum num_1000 <> JNum num_0
  /\ JNum num_0_7 <> JNum num_0.
Proof. repeat split; discriminate. Qed.

(** ** Errors of generateText *)

(** Whatever the body of a [try] does, a handler that logs and throws a
    fixed error lets no other error out. *)
Lemma try_catch_generic {A} (body : M A) (label : string) (generic : Thrown)
    (w : World) (t : Thrown) :
  (try_catch body (fun error => console_error label error;; throw generic) w).1 = Throw t ->
  t = generic.
Proof.
  unfold try_catch, console_error, emit, throw, mbind, M_bind.
  destruct (body w) as [[a|e] w']; simpl; [discriminate | congruence].
Qed.

(** C5. Every error leaving [generateText] is the generic
    [Error('Failed to generate text response')], whatever the arguments;
    and when the upstream call is rejected ([options] being a record or
    omitted), the method has sent that one request only, has written the
    rejection reason to [console.error], and throws the generic error,
    which carries nothing of the reason. *)
Theorem generateText_upstream_failure `{R : Runtime}
    (p : string) (options : JsValue) (w : World) :
  (forall t, (generateText (JStr p) options w).1 = Throw t ->
             t = JsError "Error" "Failed to generate text response") /\
  (forall props reason,
      default_param options (JObj []) = JObj props ->
      let client := openai (w_service w) in
      let body := JObj [
        ("model", js_or (default JUndefined (lookup_prop "model" props)) (model (w_service w)));
        ("messages", JArr [JObj [("role", JStr "user"); ("content", JStr p)]]);
        ("max_tokens", js_or (default JUndefined (lookup_prop "maxTokens" props)) (JNum num_1000));
        ("temperature", js_or (default JUndefined (lookup_prop "temperature" props)) (JNum num_0_7))] in
      completions_create client body = Throw reason ->
      generateText (JStr p) options w =
        (Throw (JsError "Error" "Failed to generate text response"),
         extend w [Request client body;
                   ConsoleError "Error generating text with OpenAI:" reason])).
Proof.
  split.
  - intros t Ht. unfold generateText in Ht.
    by apply try_catch_generic in Ht.
  - intros props reason Hopt client body Hfail.
    assert (Hsame : generateText (JStr p) options w = generateText (JStr p) (JObj props) w).
    { unfold generateText. by rewrite Hopt. }
    pose proof (generateText_object (JStr p) props w) as Hrun; simpl in Hrun.
    rewrite Hsame, Hrun. subst client body. unfold user_message in Hfail |- *.
    by rewrite Hfail.
Qed.

Lemma generateText_upstream_failure_witness :
  let w := module_load {["OPENAI_API_KEY" := "sk-test"]} in
  let reason := JsError "RateLimitError" "429 You exceeded your current quota" in
  generateText (R := failing reason) (JStr "hello") (JObj []) w =
    (Throw (JsError "Error" "Failed to generate text response"),
     extend w [Request (openai (w_service w))
                 (JObj [("model", JStr "gpt-4o-mini");
                        ("messages", JArr [JObj [("role", JStr "user");
                                                 ("content", JStr "hello")]]);
                        ("max_tokens", JNum num_1000);
                        ("temperature", JNum num_0_7)]);
               ConsoleError "Error generating text with OpenAI:" reason]).
Proof.
  intros w reason.
  exact (proj2 (generateText_upstream_failure (R := failing reason) "hello" (JObj []) w)
           [] reason eq_refl eq_refl).
Defined.

(** ** chat *)

Section ChatFacts.
Context `{R : Runtime}.

(** What [chat] does when [history] is an array. *)
Lemma chat_array (items : list JsValue) (message : JsValue) (w : World) :
  let this := w_service w in
  let body := JObj [
    ("model", model this);
    ("messages", JArr (items ++ [user_message message]));
    ("max_tokens", JNum num_1000)] in
  chat (JArr items) message w =
    match completions_create (openai this) body with
    | Return completion =>
        match first_content completion with
        | Return content => (Return content, extend w [Request (openai this) body])
        | Throw error =>
            (Throw (new_Error "Failed to process chat message"),
             extend w [Request (openai this) body;
                       ConsoleError "Error in chat with OpenAI:" error])
        end
    | Throw error =>
        (Throw (new_Error "Failed to process chat message"),
         extend w [Request (openai this) body;
                   ConsoleError "Error in chat with OpenAI:" error])
    end.
Proof.
  intros this body.
  unfold chat, try_catch, await_create, console_error, emit, eval,
    throw, get_this, mbind, M_bind; simpl.
  fold this. fold body.
  destruct (completions_create (openai this) body) as [completion|error]; simpl.
  - destruct (first_content completion) as [content|error]; simpl; [done|].
    by rewrite extend_extend.
  - by rewrite extend_extend.
Qed.

End ChatFacts.

(** C3. For every history array and every message string, [chat] sends
    exactly one request whose message list is the history followed by one
    new user message, with model "gpt-4o-mini", [max_tokens] 1000 and no
    [temperature] property; when the upstream call is fulfilled and the
    completion has a first choice, its message content is returned. *)
Theorem chat_request_and_result `{R : Runtime}
    (history : list JsValue) (message : string) (w : World) :
  w_service w = constructor (w_config w) ->
  let client := openai (w_service w) in
  let body := JObj [
    ("model", JStr "gpt-4o-mini");
    ("messages", JArr (history ++ [JObj [("role", JStr "user"); ("content", JStr message)]]));
    ("max_tokens", JNum num_1000)] in
  exists logged : list Event,
    (chat (JArr history) (JStr message) w).2 = extend w (Request client body :: logged) /\
    requests logged = [] /\
    get_prop body "temperature" = Return JUndefined /\
    (forall completion content,
        completions_create client body = Return completion ->
        first_content completion = Return content ->
        (chat (JArr history) (JStr message) w).1 = Return content).
Proof.
  intros Hsvc client body.
  pose proof (chat_array history (JStr message) w) as Hrun; simpl in Hrun.
  assert (Hmodel : model (w_service w) = JStr "gpt-4o-mini") by (by rewrite Hsvc).
  rewrite Hmodel in Hrun. unfold user_message in Hrun.
  fold client in Hrun. fold body in Hrun.
  exists (match completions_create client body with
          | Return completion =>
              match first_content completion with
              | Return _ => []
              | Throw error => [ConsoleError "Error in chat with OpenAI:" error]
              end
          | Throw error => [ConsoleError "Error in chat with OpenAI:" error]
          end).
  rewrite Hrun. split; [|split; [|split]].
  - destruct (completions_create client body) as [c|e]; [destruct (first_content c)|]; done.
  - destruct (completions_create client body) as [c|e]; [destruct (first_content c)|]; done.
  - reflexivity.
  - intros c v Hc Hv. by rewrite Hc, Hv.
Qed.

Lemma chat_request_and_result_witness :
  let w := module_load {["OPENAI_API_KEY" := "sk-test"]} in
  let hi := JObj [("role", JStr "user"); ("content", JStr "hi")] in
  w_service w = constructor (w_config w) /\
  requests (w_trace (chat (R := answering "Fine, thanks") (JArr [hi]) (JStr "how are you?") w).2)
    = [JObj [("model", JStr "gpt-4o-mini");
             ("messages", JArr [hi; JObj [("role", JStr "user");
                                          ("content", JStr "how are you?")]]);
             ("max_tokens", JNum num_1000)]] /\
  (chat (R := answering "Fine, thanks") (JArr [hi]) (JStr "how are you?") w).1
    = Return (JStr "Fine, thanks").
Proof.
  intros w hi. split; [reflexivity|].
  destruct (chat_request_and_result (R := answering "Fine, thanks")
              [hi] "how are you?" w eq_refl)
    as (logged & Hw & Hlogged & _ & Hres).
  split.
  - rewrite Hw. unfold requests in *. simpl. f_equal. exact Hlogged.
  - exact (Hres _ _ eq_refl eq_refl).
Defined.

(** C9. Calling [chat] with the history omitted is calling it with the
    empty array: the two runs are equal, and the message list of the
    request is the single new user message. *)
Theorem chat_history_omitted `{R : Runtime} (message : string) (w : World) :
  chat JUndefined (JStr message) w = chat (JArr []) (JStr message) w /\
  exists logged : list Event,
    (chat JUndefined (JStr message) w).2 =
      extend w (Request (openai (w_service w))
                  (JObj [("model", model (w_service w));
                         ("messages", JArr [JObj [("role", JStr "user");
                                                  ("content", JStr message)]]);
                         ("max_tokens", JNum num_1000)]) :: logged) /\
    requests logged = [].
Proof.
  split; [reflexivity|].
  change (chat JUndefined (JStr message) w) with (chat (JArr []) (JStr message) w).
  pose proof (chat_array [] (JStr message) w) as Hrun; simpl in Hrun.
  rewrite Hrun. unfold user_message.
  match goal with
  | |- context [completions_create ?c ?b] =>
      destruct (completions_create c b) as [completion|e];
        [destruct (first_content completion) as [v|e]|]
  end; simpl; eexists; (split; [reflexivity | reflexivity]).
Qed.

(** ** generateTextStream *)

(** C7. For every prompt string, [generateTextStream] sends exactly one
    request: the single user message and the default model, as in the
    request of [generateText], with [stream: true] and without [max_tokens]
    or [temperature]; it returns what the upstream call is fulfilled with,
    and throws [Error('Failed to generate streaming response')] when that
    call is rejected. *)
Theorem generateTextStream_request `{R : Runtime} (p : string) (w : World) :
  w_service w = constructor (w_config w) ->
  let client := openai (w_service w) in
  let body := JObj [
    ("model", JStr "gpt-4o-mini");
    ("messages", JArr [JObj [("role", JStr "user"); ("content", JStr p)]]);
    ("stream", JBool true)] in
  generateTextStream (JStr p) w =
    match completions_create client body with
    | Return stream => (Return stream, extend w [Request client body])
    | Throw reason =>
        (Throw (JsError "Error" "Failed to generate streaming response"),
         extend w [Request client body;
                   ConsoleError "Error generating streaming text with OpenAI:" reason])
    end /\
  get_prop body "max_tokens" = Return JUndefined /\
  get_prop body "temperature" = Return JUndefined /\
  exists (generate_body : JsValue) (logged : list Event),
    (generateText (JStr p) JUndefined w).2
      = extend w (Request client generate_body :: logged) /\
    requests logged = [] /\
    get_prop generate_body "model" = get_prop body "model" /\
    get_prop generate_body "messages" = get_prop body "messages".
Proof.
  intros Hsvc client body.
  assert (Hmodel : model (w_service w) = JStr "gpt-4o-mini") by (by rewrite Hsvc).
  split; [|split; [reflexivity | split; [reflexivity|]]].
  - unfold generateTextStream, try_catch, await_create, console_error, emit, eval,
      throw, get_this, mbind, M_bind, mret, M_ret; simpl.
    rewrite Hmodel. unfold user_message. fold client. fold body.
    destruct (completions_create client body) as [stream|reason]; simpl; [done|].
    by rewrite extend_extend.
  - rewrite generateText_omitted.
    pose proof (generateText_object (JStr p) [] w) as Hrun; simpl in Hrun.
    rewrite Hrun, Hmodel. fold client.
    match goal with
    | |- context [completions_create client ?b] =>
        exists b; destruct (completions_create client b) as [c|e];
          [destruct (first_content c) as [v|e]|]
    end; simpl; eexists; repeat split.
Qed.

Lemma generateTextStream_request_witness :
  let w := module_load {["OPENAI_API_KEY" := "sk-test"]} in
  let reason := JsError "APIConnectionError" "Connection error." in
  let body := JObj [
    ("model", JStr "gpt-4o-mini");
    ("messages", JArr [JObj [("role", JStr "user"); ("content", JStr "hello")]]);
    ("stream", JBool true)] in
  w_service w = constructor (w_config w) /\
  generateTextStream (R := failing reason) (JStr "hello") w =
    (Throw (JsError "Error" "Failed to generate streaming response"),
     extend w [Request (openai (w_service w)) body;
               ConsoleError "Error generating streaming text with OpenAI:" reason]).
Proof.
  intros w reason body. split; [reflexivity|].
  exact (proj1 (generateTextStream_request (R := failing reason) "hello" w eq_refl)).
Defined.

(** ** analyzeTimetable *)

Section AnalysisFacts.
Context `{R : Runtime}.

(** [analyzeTimetable] is [generateText] on the selected prompt, inside
    its own [try]. *)
Lemma analyzeTimetable_run (timetableData analysisType : JsValue) (w : World) :
  let prompt := analysis_prompt timetableData (default_param analysisType (JStr "general")) in
  analyzeTimetable timetableData analysisType w =
    match generateText (JStr prompt) JUndefined w with
    | (Return content, w') => (Return content, w')
    | (Throw error, w') =>
        (Throw (new_Error "Failed to analyze timetable data"),
         extend w' [ConsoleError "Error analyzing timetable:" error])
    end.
Proof.
  intros prompt.
  unfold analyzeTimetable, try_catch. fold prompt.
  by destruct (generateText (JStr prompt) JUndefined w) as [[content|error] w'].
Qed.

End AnalysisFacts.

(** C2. The prompt of [analyzeTimetable] is one of four templates, chosen
    by strict equality of [analysisType] with 'conflicts', 'optimization'
    and 'load' (any other value, an omitted one included, gives the general
    template), followed by the serialized [timetableData]; the 'conflicts'
    template contains "scheduling conflicts".  That prompt is given to
    [generateText] with no options, and what [generateText] returns is
    returned unchanged, in the world [generateText] left; the one request
    sent carries the prompt as its single user message, with the defaults
    for [model], [max_tokens] and [temperature]. *)
Theorem analyzeTimetable_prompt_and_delegation `{R : Runtime}
    (timetableData analysisType : JsValue) (w : World) :
  let serialized := template_string (JSON_stringify timetableData) in
  let prompt := analysis_prompt timetableData (default_param analysisType (JStr "general")) in
  (analysisType = JStr "conflicts" ->
     prompt = "Analyze the following timetable data for " +:+ "scheduling conflicts"
              +:+ " and provide recommendations: " +:+ serialized) /\
  (analysisType = JStr "optimization" ->
     prompt = "Suggest optimizations for the following timetable to improve efficiency: "
              +:+ serialized) /\
  (analysisType = JStr "load" ->
     prompt = "Analyze the workload distribution in this timetable and suggest improvements: "
              +:+ serialized) /\
  (analysisType <> JStr "conflicts" -> analysisType <> JStr "optimization" ->
   analysisType <> JStr "load" ->
     prompt = "Provide a general analysis of this timetable data: " +:+ serialized) /\
  (forall content w',
     generateText (JStr prompt) JUndefined w = (Return content, w') ->
     analyzeTimetable timetableData analysisType w = (Return content, w')) /\
  (exists logged : list Event,
     (analyzeTimetable timetableData analysisType w).2 =
       extend w (Request (openai (w_service w))
                   (JObj [("model", model (w_service w));
                          ("messages", JArr [JObj [("role", JStr "user");
                                                   ("content", JStr prompt)]]);
                          ("max_tokens", JNum num_1000);
                          ("temperature", JNum num_0_7)]) :: logged) /\
     requests logged = []).
Proof.
  intros serialized prompt.
  split; [|split; [|split; [|split; [|split]]]].
  - by intros ->.
  - by intros ->.
  - by intros ->.
  - intros Hc Ho Hl. subst prompt. unfold analysis_prompt.
    assert (Hne : forall lit, analysisType <> JStr lit -> lit <> "general" ->
              strict_eq_str (default_param analysisType (JStr "general")) lit = false).
    { intros lit Hty Hlit.
      destruct analysisType as [| | | |s| |];
        cbn [default_param strict_eq_str]; try reflexivity.
      - apply String.eqb_neq. congruence.
      - apply String.eqb_neq. congruence. }
    by rewrite !Hne.
  - intros content w' Hgen.
    pose proof (analyzeTimetable_run timetableData analysisType w) as Hrun.
    simpl in Hrun. fold prompt in Hrun. by rewrite Hrun, Hgen.
  - pose proof (analyzeTimetable_run timetableData analysisType w) as Hrun.
    simpl in Hrun. fold prompt in Hrun.
    rewrite Hrun, generateText_omitted.
    pose proof (generateText_object (JStr prompt) [] w) as Hgen; simpl in Hgen.
    rewrite Hgen. unfold user_message.
    match goal with
    | |- context [completions_create ?c ?b] =>
        destruct (completions_create c b) as [completion|e];
          [destruct (first_content completion) as [v|e]|]
    end; simpl; rewrite ?extend_extend; simpl; eexists; (split; [reflexivity | reflexivity]).
Qed.

Lemma analyzeTimetable_prompt_and_delegation_witness :
  let w := module_load {["OPENAI_API_KEY" := "sk-test"]} in
  analysis_prompt (R := answering "No conflicts found") (JArr []) (JStr "conflicts")
    = "Analyze the following timetable data for scheduling conflicts and provide recommendations: []"
  /\
  analysis_prompt (R := answering "No conflicts found") (JArr [])
      (default_param (JStr "nonsense") (JStr "general"))
    = "Provide a general analysis of this timetable data: []"
  /\
  (analyzeTimetable (R := answering "No conflicts found") (JArr []) (JStr "conflicts") w).1
    = Return (JStr "No conflicts found").
Proof.
  intros w.
  pose proof (analyzeTimetable_prompt_and_delegation (R := answering "No conflicts found")
                (JArr []) (JStr "conflicts") w) as (Hc & _ & _ & _ & Hdel & _).
  pose proof (analyzeTimetable_prompt_and_delegation (R := answering "No conflicts found")
                (JArr []) (JStr "nonsense") w) as (_ & _ & _ & Hg & _ & _).
  split; [exact (Hc eq_refl)|].
  split; [apply Hg; discriminate|].
  by rewrite (Hdel _ _ eq_refl).
Defined.

(** ** The service state is never written *)

Section Frame.
Context `{R : Runtime}.

Lemma appends_only_mret {A} (a : A) : appends_only (mret a).
Proof. intros w. exists []. by rewrite extend_nil. Qed.

Lemma appends_only_throw {A} (t : Thrown) : appends_only (@throw A t).
Proof. intros w. exists []. by rewrite extend_nil. Qed.

Lemma appends_only_eval {A} (o : Outcome A) : appends_only (eval o).
Proof. intros w. exists []. by rewrite extend_nil. Qed.

Lemma appends_only_get_this : appends_only get_this.
Proof. intros w. exists []. by rewrite extend_nil. Qed.

Lemma appends_only_emit (e : Event) : appends_only (emit e).
Proof. intros w. by exists [e]. Qed.

Lemma appends_only_bind {A B} (m : M A) (f : A -> M B) :
  appends_only m -> (forall a, appends_only (f a)) -> appends_only (m ≫= f).
Proof.
  intros Hm Hf w. unfold mbind, M_bind.
  destruct (Hm w) as [es1 Hes1].
  destruct (m w) as [[a|t] w1]; simpl in *; subst w1.
  - destruct (Hf a (extend w es1)) as [es2 Hes2].
    exists (es1 ++ es2)%list. by rewrite Hes2, extend_extend.
  - by exists es1.
Qed.

Lemma appends_only_try_catch {A} (body : M A) (handler : Thrown -> M A) :
  appends_only body -> (forall t, appends_only (handler t)) ->
  appends_only (try_catch body handler).
Proof.
  intros Hm Hh w. unfold try_catch.
  destruct (Hm w) as [es1 Hes1].
  destruct (body w) as [[a|t] w1]; simpl in *; subst w1.
  - by exists es1.
  - destruct (Hh t (extend w es1)) as [es2 Hes2].
    exists (es1 ++ es2)%list. by rewrite Hes2, extend_extend.
Qed.

Lemma appends_only_await_create (client : OpenAIClient) (body : JsValue) :
  appends_only (await_create client body).
Proof.
  apply appends_only_bind; [apply appends_only_emit|].
  intros _. apply appends_only_eval.
Qed.

Lemma appends_only_handler {A} (label : string) (generic : Thrown) (error : Thrown) :
  appends_only (console_error label error;; @throw A generic).
Proof.
  apply appends_only_bind; [apply appends_only_emit|].
  intros _. apply appends_only_throw.
Qed.

Local Ltac frame :=
  repeat first
    [ apply appends_only_try_catch
    | apply appends_only_bind
    | apply appends_only_handler
    | apply appends_only_await_create
    | apply appends_only_eval
    | apply appends_only_get_this
    | apply appends_only_mret
    | intro ].

Lemma appends_only_generateText (prompt options : JsValue) :
  appends_only (generateText prompt options).
Proof. unfold generateText. frame. Qed.

Lemma appends_only_generateTextStream (prompt : JsValue) :
  appends_only (generateTextStream prompt).
Proof. unfold generateTextStream. frame. Qed.

Lemma appends_only_chat (history message : JsValue) :
  appends_only (chat history message).
Proof. unfold chat. frame. Qed.

Lemma appends_only_analyzeTimetable (timetableData analysisType : JsValue) :
  appends_only (analyzeTimetable timetableData analysisType).
Proof.
  unfold analyzeTimetable.
  apply appends_only_try_catch; [apply appends_only_generateText|].
  intros error. apply appends_only_handler.
Qed.

Lemma appends_only_unchanged {A} (m : M A) (w : World) :
  appends_only m ->
  w_service (m w).2 = w_service w /\
  w_config (m w).2 = w_config w /\
  w_env (m w).2 = w_env w.
Proof. intros Hm. destruct (Hm w) as [es ->]. done. Qed.

End Frame.

(** C8. After any call of any of the four methods, with any arguments and
    any behaviour of the upstream call, the service instance (its client
    handle and its model), the configuration object and the environment are
    what they were before the call. *)
Theorem service_state_unchanged `{R : Runtime} (a b : JsValue) (w : World) :
  let unchanged (w' : World) :=
    openai (w_service w') = openai (w_service w) /\
    model (w_service w') = model (w_service w) /\
    w_config w' = w_config w /\
    w_env w' = w_env w in
  unchanged (generateText a b w).2 /\
  unchanged (generateTextStream a w).2 /\
  unchanged (chat a b w).2 /\
  unchanged (analyzeTimetable a b w).2.
Proof.
  intros unchanged.
  assert (Hall : forall (m : M JsValue), appends_only m -> unchanged (m w).2).
  { intros m Hm. destruct (appends_only_unchanged m w Hm) as (Hs & Hc & He).
    unfold unchanged. by rewrite Hs, Hc, He. }
  split; [|split; [|split]]; apply Hall.
  - apply appends_only_generateText.
  - apply appends_only_generateTextStream.
  - apply appends_only_chat.
  - apply appends_only_analyzeTimetable.
Qed.

(** ** Configuration *)

(** C4. When [OPENAI_API_KEY] is absent from the environment or empty,
    [validateConfig] throws an error whose message names it, after the fixed
    prefix; when it is a non-empty string, [validateConfig] returns.  In
    both cases the world is left as it was. *)
Theorem validateConfig_checks_api_key (w : World) :
  (w_env w !! "OPENAI_API_KEY" = None \/ w_env w !! "OPENAI_API_KEY" = Some "" ->
   validateConfig w =
     (Throw (JsError "Error" "Missing required environment variables: OPENAI_API_KEY"), w)) /\
  (forall key, w_env w !! "OPENAI_API_KEY" = Some key -> key <> "" ->
   validateConfig w = (Return tt, w)).
Proof.
  unfold validateConfig, get_env, throw, mbind, M_bind, mret, M_ret,
    Config.requiredVars, Config.env_get.
  split.
  - intros [Hk | Hk]; cbn [List.filter]; by rewrite Hk.
  - intros key Hk Hne; cbn [List.filter]. rewrite Hk. cbn [truthy].
    apply String.eqb_neq in Hne. by rewrite Hne.
Qed.

Lemma validateConfig_checks_api_key_witness :
  let missing := module_load {["PORT" := "8080"]} in
  let empty := module_load {["OPENAI_API_KEY" := ""]} in
  let present := module_load {["OPENAI_API_KEY" := "sk-test"]} in
  validateConfig missing =
    (Throw (JsError "Error" "Missing required environment variables: OPENAI_API_KEY"), missing) /\
  validateConfig empty =
    (Throw (JsError "Error" "Missing required environment variables: OPENAI_API_KEY"), empty) /\
  validateConfig present = (Return tt, present).
Proof.
  intros missing empty present. split; [|split].
  - apply (proj1 (validateConfig_checks_api_key missing)). left. reflexivity.
  - apply (proj1 (validateConfig_checks_api_key empty)). right. reflexivity.
  - apply (proj2 (validateConfig_checks_api_key present) "sk-test"); [reflexivity | discriminate].
Defined.

Lemma env_get_set (env : gmap string string) (name s : string) :
  env !! name = Some s -> Config.env_get env name = JStr s.
Proof. unfold Config.env_get. by intros ->. Qed.

Lemma env_get_unset (env : gmap string string) (name : string) :
  env !! name = None -> Config.env_get env name = JUndefined.
Proof. unfold Config.env_get. by intros ->. Qed.

Lemma env_get_delete_ne (env : gmap string string) (name other : string) :
  name <> other -> Config.env_get (delete name env) other = Config.env_get env other.
Proof. intros Hne. unfold Config.env_get. by rewrite lookup_delete_ne. Qed.

Lemma js_or_env_set (env : gmap string string) (name s : string) (d : JsValue) :
  env !! name = Some s -> s <> "" -> js_or (Config.env_get env name) d = JStr s.
Proof.
  intros Hk Hne. rewrite <- (env_get_set env name s Hk).
  apply js_or_truthy, env_get_truthy. by exists s.
Qed.

Lemma js_or_env_empty (env : gmap string string) (name : string) (d : JsValue) :
  env !! name = Some "" -> js_or (Config.env_get env name) d = d.
Proof. intros Hk. by rewrite (env_get_set env name "" Hk). Qed.

Lemma js_or_env_unset (env : gmap string string) (name : string) (d : JsValue) :
  env !! name = None -> js_or (Config.env_get env name) d = d.
Proof. intros Hk. by rewrite (env_get_unset env name Hk). Qed.

(** C6 (as amended). For every environment, [config] has: [port],
    [nodeEnv] and [cors.origin] equal to the string value of [PORT],
    [NODE_ENV] and [CORS_ORIGIN] when that variable is set to a non-empty
    string, and equal to the number 3000, "development" and
    "http://localhost:5173" when it is unset; [openai.apiKey] equal to the
    value of [OPENAI_API_KEY] when set and [undefined] otherwise, with no
    default.  Building [config] cannot fail. *)
Theorem config_fields (env : gmap string string) :
  (forall s, env !! "PORT" = Some s -> s <> "" ->
     Config.port (Config.config env) = JStr s) /\
  (env !! "PORT" = None ->
     Config.port (Config.config env) = JNum (S754_finite false (3000 * 2 ^ 41) (-41))) /\
  (forall s, env !! "NODE_ENV" = Some s -> s <> "" ->
     Config.nodeEnv (Config.config env) = JStr s) /\
  (env !! "NODE_ENV" = None ->
     Config.nodeEnv (Config.config env) = JStr "development") /\
  (forall s, env !! "CORS_ORIGIN" = Some s -> s <> "" ->
     Config.origin (Config.cors (Config.config env)) = JStr s) /\
  (env !! "CORS_ORIGIN" = None ->
     Config.origin (Config.cors (Config.config env)) = JStr "http://localhost:5173") /\
  (forall s, env !! "OPENAI_API_KEY" = Some s ->
     Config.apiKey (Config.openai (Config.config env)) = JStr s) /\
  (env !! "OPENAI_API_KEY" = None ->
     Config.apiKey (Config.openai (Config.config env)) = JUndefined).
Proof.
  unfold Config.config; cbn [Config.port Config.nodeEnv Config.cors Config.origin
                             Config.openai Config.apiKey].
  split; [|split; [|split; [|split; [|split; [|split; [|split]]]]]].
  - intros s Hk Hne. by apply js_or_env_set.
  - intros Hk. by apply js_or_env_unset.
  - intros s Hk Hne. by apply js_or_env_set.
  - intros Hk. by apply js_or_env_unset.
  - intros s Hk Hne. by apply js_or_env_set.
  - intros Hk. by apply js_or_env_unset.
  - intros s Hk. by apply env_get_set.
  - intros Hk. by apply env_get_unset.
Qed.

Lemma config_fields_witness :
  let env : gmap string string :=
    <["PORT" := "8080"]> (<["OPENAI_API_KEY" := "sk-test"]> ∅) in
  Config.port (Config.config env) = JStr "8080" /\
  Config.nodeEnv (Config.config env) = JStr "development" /\
  Config.origin (Config.cors (Config.config env)) = JStr "http://localhost:5173" /\
  Config.apiKey (Config.openai (Config.config env)) = JStr "sk-test".
Proof.
  intros env.
  destruct (config_fields env) as (Hport & _ & _ & Hnode & _ & Hcors & Hkey & _).
  split; [|split; [|split]].
  - apply Hport; [reflexivity | discriminate].
  - apply Hnode. reflexivity.
  - apply Hcors. reflexivity.
  - apply Hkey. reflexivity.
Defined.

(** C6 as stated fails: with [PORT] set to the empty string, [port] is not
    the value that was set but the number 3000. *)
Lemma config_empty_port_not_kept :
  let env : gmap string string := {["PORT" := ""]} in
  env !! "PORT" = Some "" /\
  Config.port (Config.config env) = JNum num_3000 /\
  Config.port (Config.config env) <> JStr "".
Proof. split; [reflexivity | split; [reflexivity | discriminate]]. Qed.

(** C10. When [PORT], [NODE_ENV] or [CORS_ORIGIN] is set to the empty
    string, [config] is what it would be with that variable removed from
    the environment, and the field holds its default: the number 3000,
    "development", "http://localhost:5173". *)
Theorem config_empty_is_unset (env : gmap string string) :
  (env !! "PORT" = Some "" ->
     Config.config env = Config.config (delete "PORT" env) /\
     Config.port (Config.config env) = JNum (S754_finite false (3000 * 2 ^ 41) (-41))) /\
  (env !! "NODE_ENV" = Some "" ->
     Config.config env = Config.config (delete "NODE_ENV" env) /\
     Config.nodeEnv (Config.config env) = JStr "development") /\
  (env !! "CORS_ORIGIN" = Some "" ->
     Config.config env = Config.config (delete "CORS_ORIGIN" env) /\
     Config.origin (Config.cors (Config.config env)) = JStr "http://localhost:5173").
Proof.
  unfold Config.config; cbn [Config.port Config.nodeEnv Config.cors Config.origin].
  split; [|split]; intros Hk.
  - rewrite (env_get_delete_ne env "PORT" "NODE_ENV") by discriminate.
    rewrite (env_get_delete_ne env "PORT" "OPENAI_API_KEY") by discriminate.
    rewrite (env_get_delete_ne env "PORT" "CORS_ORIGIN") by discriminate.
    rewrite (js_or_env_empty env "PORT" _ Hk).
    by rewrite (js_or_env_unset (delete "PORT" env) "PORT") by apply lookup_delete_eq.
  - rewrite (env_get_delete_ne env "NODE_ENV" "PORT") by discriminate.
    rewrite (env_get_delete_ne env "NODE_ENV" "OPENAI_API_KEY") by discriminate.
    rewrite (env_get_delete_ne env "NODE_ENV" "CORS_ORIGIN") by discriminate.
    rewrite (js_or_env_empty env "NODE_ENV" _ Hk).
    by rewrite (js_or_env_unset (delete "NODE_ENV" env) "NODE_ENV") by apply lookup_delete_eq.
  - rewrite (env_get_delete_ne env "CORS_ORIGIN" "PORT") by discriminate.
    rewrite (env_get_delete_ne env "CORS_ORIGIN" "NODE_ENV") by discriminate.
    rewrite (env_get_delete_ne env "CORS_ORIGIN" "OPENAI_API_KEY") by discriminate.
    rewrite (js_or_env_empty env "CORS_ORIGIN" _ Hk).
    by rewrite (js_or_env_unset (delete "CORS_ORIGIN" env) "CORS_ORIGIN")
      by apply lookup_delete_eq.
Qed.

Lemma config_empty_is_unset_witness :
  let env : gmap string string :=
    <["PORT" := ""]> (<["NODE_ENV" := ""]> (<["CORS_ORIGIN" := ""]> ∅)) in
  Config.port (Config.config env) = JNum num_3000 /\
  Config.nodeEnv (Config.config env) = JStr "development" /\
  Config.origin (Config.cors (Config.config env)) = JStr "http://localhost:5173".
Proof.
  intros env.
  destruct (config_empty_is_unset env) as (Hport & Hnode & Hcors).
  split; [|split].
  - exact (proj2 (Hport eq_refl)).
  - exact (proj2 (Hnode eq_refl)).
  - exact (proj2 (Hcors eq_refl)).
Defined.

(* ===================================================================== *)
(** * Further properties of the same code *)
(* ===================================================================== *)

(** ** Edge cases of the arguments *)

(** X1. Arguments the methods cannot read make them fail before anything
    is sent.  With [options = null], [generateText] throws its generic
    error after one [console.error] line and no request.  With a [history]
    that cannot be spread (neither an array nor a string, and not omitted:
    [null], a number, a boolean, a single message object), [chat] does the
    same with its own generic error. *)
Theorem unreadable_arguments_fail_before_sending `{R : Runtime}
    (prompt history message : JsValue) (w : World) :
  (exists error : Thrown,
     generateText prompt JNull w =
       (Throw (JsError "Error" "Failed to generate text response"),
        extend w [ConsoleError "Error generating text with OpenAI:" error])) /\
  (history <> JUndefined ->
   (forall items, history <> JArr items) ->
   (forall s, history <> JStr s) ->
   exists error : Thrown,
     chat history message w =
       (Throw (JsError "Error" "Failed to process chat message"),
        extend w [ConsoleError "Error in chat with OpenAI:" error])).
Proof.
  split; [eexists; reflexivity|].
  intros Hundef Harr Hstr.
  destruct history as [| |b|n|s|items|props]; try (eexists; reflexivity).
  - by destruct Hundef.
  - by destruct (Hstr s).
  - by destruct (Harr items).
Qed.

Lemma unreadable_arguments_fail_before_sending_witness :
  let w := module_load {["OPENAI_API_KEY" := "sk-test"]} in
  let single := JObj [("role", JStr "user"); ("content", JStr "hi")] in
  requests (w_trace (chat (R := answering "Hi there") single (JStr "how are you?") w).2) = [] /\
  (chat (R := answering "Hi there") single (JStr "how are you?") w).1
    = Throw (JsError "Error" "Failed to process chat message").
Proof.
  intros w single.
  destruct (proj2 (unreadable_arguments_fail_before_sending (R := answering "Hi there")
                     JNull single (JStr "how are you?") w)) as [error ->];
    [discriminate | discriminate | discriminate |].
  split; reflexivity.
Defined.

(** X2. An [options] argument that is neither an object nor [null] (a
    boolean, a number, a string, an array) has none of the three keys: the
    call runs as with [options] omitted, all three defaults applied. *)
Theorem generateText_primitive_options `{R : Runtime}
    (prompt options : JsValue) (w : World) :
  options <> JNull -> (forall props, options <> JObj props) ->
  generateText prompt options w = generateText prompt (JObj []) w.
Proof.
  intros Hnull Hobj.
  destruct options as [| |b|n|s|items|props]; try reflexivity.
  - by destruct Hnull.
  - by destruct (Hobj props).
Qed.

Lemma generateText_primitive_options_witness :
  let w := module_load {["OPENAI_API_KEY" := "sk-test"]} in
  requests (w_trace (generateText (R := answering "Hi there")
                       (JStr "hello") (JStr "gpt-4o") w).2)
    = [JObj [("model", JStr "gpt-4o-mini");
             ("messages", JArr [JObj [("role", JStr "user"); ("content", JStr "hello")]]);
             ("max_tokens", JNum num_1000);
             ("temperature", JNum num_0_7)]].
Proof.
  intros w.
  rewrite (generateText_primitive_options (R := answering "Hi there")
             (JStr "hello") (JStr "gpt-4o") w);
    [reflexivity | discriminate | discriminate].
Defined.

(** ** Completions without a first choice *)

(** Reading [choices[0].message] fails when [choices] is an empty array. *)
Lemma first_content_empty_choices (completion : JsValue) :
  get_prop completion "choices" = Return (JArr []) ->
  exists error, first_content completion = Throw error.
Proof. unfold first_content. intros ->. simpl. by eexists. Qed.

(** X3. When the upstream call is fulfilled with a completion whose
    [choices] array is empty, [generateText] and [chat] have sent their one
    request, discard the completion, log the engine's error and throw their
    generic error. *)
Theorem completion_without_choices `{R : Runtime}
    (prompt : JsValue) (props : list (string * JsValue))
    (history : list JsValue) (message : JsValue) (w : World) :
  let client := openai (w_service w) in
  let generate_body := JObj [
    ("model", js_or (default JUndefined (lookup_prop "model" props)) (model (w_service w)));
    ("messages", JArr [JObj [("role", JStr "user"); ("content", prompt)]]);
    ("max_tokens", js_or (default JUndefined (lookup_prop "maxTokens" props)) (JNum num_1000));
    ("temperature", js_or (default JUndefined (lookup_prop "temperature" props)) (JNum num_0_7))] in
  let chat_body := JObj [
    ("model", model (w_service w));
    ("messages", JArr (history ++ [JObj [("role", JStr "user"); ("content", message)]]));
    ("max_tokens", JNum num_1000)] in
  (forall completion,
     completions_create client generate_body = Return completion ->
     get_prop completion "choices" = Return (JArr []) ->
     exists error,
       generateText prompt (JObj props) w =
         (Throw (JsError "Error" "Failed to generate text response"),
          extend w [Request client generate_body;
                    ConsoleError "Error generating text with OpenAI:" error])) /\
  (forall completion,
     completions_create client chat_body = Return completion ->
     get_prop completion "choices" = Return (JArr []) ->
     exists error,
       chat (JArr history) message w =
         (Throw (JsError "Error" "Failed to process chat message"),
          extend w [Request client chat_body;
                    ConsoleError "Error in chat with OpenAI:" error])).
Proof.
  intros client generate_body chat_body. split.
  - intros completion Hc Hchoices.
    destruct (first_content_empty_choices completion Hchoices) as [error Herr].
    exists error.
    pose proof (generateText_object prompt props w) as Hrun; simpl in Hrun.
    unfold user_message in Hrun. fold client in Hrun. fold generate_body in Hrun.
    by rewrite Hrun, Hc, Herr.
  - intros completion Hc Hchoices.
    destruct (first_content_empty_choices completion Hchoices) as [error Herr].
    exists error.
    pose proof (chat_array history message w) as Hrun; simpl in Hrun.
    unfold user_message in Hrun. fold client in Hrun. fold chat_body in Hrun.
    by rewrite Hrun, Hc, Herr.
Qed.

(** A host whose upstream answers every request with no choice at all. *)
Lemma completion_without_choices_witness :
  let host : Runtime :=
    {| completions_create := fun _ _ => Return (JObj [("choices", JArr [])]);
       JSON_stringify := sample_stringify |} in
  let w := module_load {["OPENAI_API_KEY" := "sk-test"]} in
  (generateText (R := host) (JStr "hello") (JObj []) w).1
    = Throw (JsError "Error" "Failed to generate text response") /\
  (chat (R := host) (JArr []) (JStr "hello") w).1
    = Throw (JsError "Error" "Failed to process chat message").
Proof.
  intros host w.
  destruct (completion_without_choices (R := host) (JStr "hello") [] [] (JStr "hello") w)
    as [Hgen Hchat].
  destruct (Hgen _ eq_refl eq_refl) as [e1 ->].
  destruct (Hchat _ eq_refl eq_refl) as [e2 ->].
  split; reflexivity.
Defined.

(** ** Errors of the other three methods *)

(** X4. When the upstream call of [chat] is rejected ([history] being an
    array or omitted), the one request has been sent, the reason is written
    to [console.error], and the generic chat error is thrown, which carries
    nothing of the reason. *)
Theorem chat_upstream_failure `{R : Runtime}
    (history message : JsValue) (items : list JsValue) (reason : Thrown) (w : World) :
  default_param history (JArr []) = JArr items ->
  let client := openai (w_service w) in
  let body := JObj [
    ("model", model (w_service w));
    ("messages", JArr (items ++ [JObj [("role", JStr "user"); ("content", message)]]));
    ("max_tokens", JNum num_1000)] in
  completions_create client body = Throw reason ->
  chat history message w =
    (Throw (JsError "Error" "Failed to process chat message"),
     extend w [Request client body; ConsoleError "Error in chat with OpenAI:" reason]).
Proof.
  intros Hhist client body Hfail.
  assert (Hsame : chat history message w = chat (JArr items) message w).
  { unfold chat. by rewrite Hhist. }
  pose proof (chat_array items message w) as Hrun; simpl in Hrun.
  unfold user_message in Hrun. fold client in Hrun. fold body in Hrun.
  by rewrite Hsame, Hrun, Hfail.
Qed.

Lemma chat_upstream_failure_witness :
  let reason := JsError "APIConnectionError" "Connection error." in
  let w := module_load {["OPENAI_API_KEY" := "sk-test"]} in
  (chat (R := failing reason) JUndefined (JStr "hello") w).1
    = Throw (JsError "Error" "Failed to process chat message").
Proof.
  intros reason w.
  by rewrite (chat_upstream_failure (R := failing reason)
                JUndefined (JStr "hello") [] reason w eq_refl eq_refl).
Defined.

(** X5. Whatever the arguments and whatever the upstream does, an error
    leaving [generateTextStream], [chat] or [analyzeTimetable] is that
    method's own fixed error; in particular [analyzeTimetable] never lets
    the error of [generateText] through. *)
Theorem methods_throw_their_generic_error `{R : Runtime}
    (a b : JsValue) (w : World) (t : Thrown) :
  ((generateTextStream a w).1 = Throw t ->
     t = JsError "Error" "Failed to generate streaming response") /\
  ((chat a b w).1 = Throw t ->
     t = JsError "Error" "Failed to process chat message") /\
  ((analyzeTimetable a b w).1 = Throw t ->
     t = JsError "Error" "Failed to analyze timetable data").
Proof.
  split; [|split]; intros Ht.
  - unfold generateTextStream in Ht. by apply try_catch_generic in Ht.
  - unfold chat in Ht. by apply try_catch_generic in Ht.
  - unfold analyzeTimetable in Ht. by apply try_catch_generic in Ht.
Qed.

Lemma methods_throw_their_generic_error_witness :
  let reason := JsError "RateLimitError" "429" in
  let w := module_load {["OPENAI_API_KEY" := "sk-test"]} in
  exists t, (analyzeTimetable (R := failing reason) JNull (JStr "load") w).1 = Throw t /\
            t = JsError "Error" "Failed to analyze timetable data".
Proof.
  intros reason w. eexists. split; [reflexivity|].
  apply (proj2 (proj2 (methods_throw_their_generic_error (R := failing reason)
                         JNull (JStr "load") w _))).
  reflexivity.
Defined.

(** X6. When the upstream call made for [analyzeTimetable] is rejected, the
    trace holds the one request and two [console.error] lines: the first,
    written by [generateText], has the upstream reason; the second, written
    by [analyzeTimetable], has only the generic error of [generateText].
    The error thrown is the generic analysis error. *)
Theorem analyzeTimetable_upstream_failure `{R : Runtime}
    (timetableData analysisType : JsValue) (reason : Thrown) (w : World) :
  let client := openai (w_service w) in
  let prompt := analysis_prompt timetableData (default_param analysisType (JStr "general")) in
  let body := JObj [
    ("model", model (w_service w));
    ("messages", JArr [JObj [("role", JStr "user"); ("content", JStr prompt)]]);
    ("max_tokens", JNum num_1000);
    ("temperature", JNum num_0_7)] in
  completions_create client body = Throw reason ->
  analyzeTimetable timetableData analysisType w =
    (Throw (JsError "Error" "Failed to analyze timetable data"),
     extend w [Request client body;
               ConsoleError "Error generating text with OpenAI:" reason;
               ConsoleError "Error analyzing timetable:"
                 (JsError "Error" "Failed to generate text response")]).
Proof.
  intros client prompt body Hfail.
  pose proof (analyzeTimetable_run timetableData analysisType w) as Hrun.
  simpl in Hrun. fold prompt in Hrun.
  pose proof (generateText_object (JStr prompt) [] w) as Hgen.
  unfold js_or, user_message in Hgen; simpl in Hgen.
  fold client in Hgen. fold body in Hgen.
  rewrite Hfail in Hgen.
  rewrite Hrun, generateText_omitted, Hgen.
  by rewrite extend_extend.
Qed.

Lemma analyzeTimetable_upstream_failure_witness :
  let reason := JsError "RateLimitError" "429" in
  let w := module_load {["OPENAI_API_KEY" := "sk-test"]} in
  w_trace (analyzeTimetable (R := failing reason) (JArr []) (JStr "load") w).2 =
    [Request (openai (w_service w))
       (JObj [("model", JStr "gpt-4o-mini");
              ("messages",
               JArr [JObj [("role", JStr "user");
                           ("content", JStr "Analyze the workload distribution in this timetable and suggest improvements: []")]]);
              ("max_tokens", JNum num_1000);
              ("temperature", JNum num_0_7)]);
     ConsoleError "Error generating text with OpenAI:" reason;
     ConsoleError "Error analyzing timetable:"
       (JsError "Error" "Failed to generate text response")].
Proof.
  intros reason w.
  by rewrite (analyzeTimetable_upstream_failure (R := failing reason)
                (JArr []) (JStr "load") reason w eq_refl).
Defined.

(** ** No retry: at most one request per call *)

Lemma requests_app (es1 es2 : list Event) :
  requests (es1 ++ es2) = (requests es1 ++ requests es2)%list.
Proof. unfold requests. apply omap_app. Qed.

Section Requests.
Context `{R : Runtime}.

Lemma sends_weaken {A} (n n' : nat) (m : M A) :
  sends_at_most n m -> (n <= n')%nat -> sends_at_most n' m.
Proof. intros Hm Hle w. destruct (Hm w) as (new & Hw & Hn). exists new. split; [done | lia]. Qed.

Lemma sends_mret {A} (a : A) : sends_at_most 0 (mret a).
Proof. intros w. exists []. by rewrite extend_nil. Qed.

Lemma sends_throw {A} (t : Thrown) : sends_at_most 0 (@throw A t).
Proof. intros w. exists []. by rewrite extend_nil. Qed.

Lemma sends_eval {A} (o : Outcome A) : sends_at_most 0 (eval o).
Proof. intros w. exists []. by rewrite extend_nil. Qed.

Lemma sends_get_this : sends_at_most 0 get_this.
Proof. intros w. exists []. by rewrite extend_nil. Qed.

Lemma sends_console_error (label : string) (error : Thrown) :
  sends_at_most 0 (console_error label error).
Proof. intros w. by exists [ConsoleError label error]. Qed.

Lemma sends_bind {A B} (n1 n2 : nat) (m : M A) (f : A -> M B) :
  sends_at_most n1 m -> (forall a, sends_at_most n2 (f a)) ->
  sends_at_most (n1 + n2) (m ≫= f).
Proof.
  intros Hm Hf w. unfold mbind, M_bind.
  destruct (Hm w) as (es1 & Hes1 & Hn1).
  destruct (m w) as [[a|t] w1]; simpl in *; subst w1.
  - destruct (Hf a (extend w es1)) as (es2 & Hes2 & Hn2).
    exists (es1 ++ es2)%list. rewrite Hes2, extend_extend, requests_app, length_app.
    split; [done | lia].
  - exists es1. split; [done | lia].
Qed.

Lemma sends_try_catch {A} (n1 n2 : nat) (body : M A) (handler : Thrown -> M A) :
  sends_at_most n1 body -> (forall t, sends_at_most n2 (handler t)) ->
  sends_at_most (n1 + n2) (try_catch body handler).
Proof.
  intros Hm Hh w. unfold try_catch.
  destruct (Hm w) as (es1 & Hes1 & Hn1).
  destruct (body w) as [[a|t] w1]; simpl in *; subst w1.
  - exists es1. split; [done | lia].
  - destruct (Hh t (extend w es1)) as (es2 & Hes2 & Hn2).
    exists (es1 ++ es2)%list. rewrite Hes2, extend_extend, requests_app, length_app.
    split; [done | lia].
Qed.

Lemma sends_await_create (client : OpenAIClient) (body : JsValue) :
  sends_at_most 1 (await_create client body).
Proof.
  intros w. exists [Request client body]. split; [|simpl; lia].
  unfold await_create, emit, eval, mbind, M_bind. reflexivity.
Qed.

Local Ltac count_step :=
  match goal with
  | |- forall _, _ => intro
  | |- sends_at_most _ (try_catch _ _) => eapply sends_try_catch
  | |- sends_at_most _ (await_create _ _) => eapply sends_await_create
  | |- sends_at_most _ (console_error _ _) => eapply sends_console_error
  | |- sends_at_most _ (mbind _ _) => eapply sends_bind
  | |- sends_at_most _ (throw _) => eapply sends_throw
  | |- sends_at_most _ (eval _) => eapply sends_eval
  | |- sends_at_most _ get_this => eapply sends_get_this
  | |- sends_at_most _ (mret _) => eapply sends_mret
  end.

Local Ltac count_requests :=
  eapply sends_weaken; [ repeat count_step | simpl; lia ].

Lemma sends_generateText (prompt options : JsValue) :
  sends_at_most 1 (generateText prompt options).
Proof. unfold generateText. count_requests. Qed.

Lemma sends_generateTextStream (prompt : JsValue) :
  sends_at_most 1 (generateTextStream prompt).
Proof. unfold generateTextStream. count_requests. Qed.

Lemma sends_chat (history message : JsValue) :
  sends_at_most 1 (chat history message).
Proof. unfold chat. count_requests. Qed.

Lemma sends_analyzeTimetable (timetableData analysisType : JsValue) :
  sends_at_most 1 (analyzeTimetable timetableData analysisType).
Proof.
  unfold analyzeTimetable.
  eapply sends_weaken.
  - eapply sends_try_catch; [apply sends_generateText|].
    intros error. eapply sends_bind; [apply sends_console_error|].
    intros _. apply sends_throw.
  - simpl; lia.
Qed.

End Requests.

(** X7. No method retries: whatever the arguments and whatever the
    upstream does (answer, rejection, malformed completion), a call of any
    of the four methods adds events after those already in the trace, and
    at most one of the added events is a request. *)
Theorem at_most_one_request_per_call `{R : Runtime} (a b : JsValue) (w : World) :
  let one_more (w' : World) :=
    exists new : list Event,
      w_trace w' = (w_trace w ++ new)%list /\ (length (requests new) <= 1)%nat in
  one_more (generateText a b w).2 /\
  one_more (generateTextStream a w).2 /\
  one_more (chat a b w).2 /\
  one_more (analyzeTimetable a b w).2.
Proof.
  intros one_more.
  assert (Hall : forall m : M JsValue, sends_at_most 1 m -> one_more (m w).2).
  { intros m Hm. destruct (Hm w) as (new & -> & Hn). by exists new. }
  split; [|split; [|split]]; apply Hall.
  - apply sends_generateText.
  - apply sends_generateTextStream.
  - apply sends_chat.
  - apply sends_analyzeTimetable.
Qed.

(** ** Calls do not influence each other *)

Section Independence.
Context `{R : Runtime}.











End Independence.




(** ** Configuration and the service built from it *)



Lemma js_or_default_truthy (a d : JsValue) :
  truthy d = true -> truthy (js_or a d) = true.
Proof. intros Hd. unfold js_or. by destruct (truthy a) eqn:Ha. Qed.

Lemma js_or_env_cases (env : gmap string string) (name : string) (d : JsValue) :
  js_or (Config.env_get env name) d = d \/
  exists s, s <> "" /\ env !! name = Some s /\ js_or (Config.env_get env name) d = JStr s.
Proof.
  destruct (env !! name) as [s|] eqn:Hk.
  - destruct (String.eqb_spec s "") as [->|Hne].
    + left. by apply js_or_env_empty.
    + right. exists s. split; [done | split; [done | by apply js_or_env_set]].
  - left. by apply js_or_env_unset.
Qed.

(** X11. For every environment the three optional fields of [config] hold
    a usable value: [nodeEnv] and [cors.origin] are non-empty strings, and
    [port] is either the number 3000 or the non-empty string found in
    [PORT], which is kept as a string and not converted to a number. *)
Theorem config_optional_fields_never_empty (env : gmap string string) :
  (Config.port (Config.config env) = JNum num_3000 \/
   exists s, s <> "" /\ env !! "PORT" = Some s /\ Config.port (Config.config env) = JStr s) /\
  (exists s, s <> "" /\ Config.nodeEnv (Config.config env) = JStr s) /\
  (exists s, s <> "" /\ Config.origin (Config.cors (Config.config env)) = JStr s) /\
  truthy (Config.port (Config.config env)) = true.
Proof.
  unfold Config.config; cbn [Config.port Config.nodeEnv Config.cors Config.origin].
  split; [|split; [|split]].
  - apply js_or_env_cases.
  - destruct (js_or_env_cases env "NODE_ENV" (JStr "development")) as [-> | (s & Hne & _ & ->)].
    + by exists "development".
    + by exists s.
  - destruct (js_or_env_cases env "CORS_ORIGIN" (JStr "http://localhost:5173"))
      as [-> | (s & Hne & _ & ->)].
    + by exists "http://localhost:5173".
    + by exists s.
  - by apply js_or_default_truthy.
Qed.

(** ** Data that does not serialize *)

(** X12. When [JSON.stringify] gives [undefined] for the timetable data (as
    it does for an omitted argument), [analyzeTimetable] does not fail: it
    sends its one request all the same, with the text "undefined" after
    the selected template. *)
Theorem analyzeTimetable_undefined_serialization `{R : Runtime}
    (timetableData analysisType : JsValue) (w : World) :
  JSON_stringify timetableData = None ->
  exists (template : string) (logged : list Event),
    template ∈ [
      "Analyze the following timetable data for scheduling conflicts and provide recommendations: ";
      "Suggest optimizations for the following timetable to improve efficiency: ";
      "Analyze the workload distribution in this timetable and suggest improvements: ";
      "Provide a general analysis of this timetable data: "] /\
    (analyzeTimetable timetableData analysisType w).2 =
      extend w (Request (openai (w_service w))
                  (JObj [("model", model (w_service w));
                         ("messages", JArr [JObj [("role", JStr "user");
                                                  ("content", JStr (template +:+ "undefined"))]]);
                         ("max_tokens", JNum num_1000);
                         ("temperature", JNum num_0_7)]) :: logged) /\
    requests logged = [].
Proof.
  intros Hser.
  pose proof (analyzeTimetable_run timetableData analysisType w) as Hrun.
  cbv zeta in Hrun.
  set (ty := default_param analysisType (JStr "general")) in *.
  assert (Hprompt : exists template,
    template ∈ [
      "Analyze the following timetable data for scheduling conflicts and provide recommendations: ";
      "Suggest optimizations for the following timetable to improve efficiency: ";
      "Analyze the workload distribution in this timetable and suggest improvements: ";
      "Provide a general analysis of this timetable data: "] /\
    analysis_prompt timetableData ty = template +:+ "undefined").
  { unfold analysis_prompt. rewrite Hser. cbn [template_string].
    destruct (strict_eq_str ty "conflicts"); [eexists; split; [|reflexivity]; set_solver|].
    destruct (strict_eq_str ty "optimization"); [eexists; split; [|reflexivity]; set_solver|].
    destruct (strict_eq_str ty "load"); eexists; (split; [|reflexivity]); set_solver. }
  destruct Hprompt as (template & Hin & Hprompt).
  exists template.
  rewrite Hprompt in Hrun. rewrite Hrun, generateText_omitted.
  pose proof (generateText_object (JStr (template +:+ "undefined")) [] w) as Hgen.
  unfold js_or, user_message in Hgen; cbn [lookup_prop default truthy] in Hgen.
  cbv zeta in Hgen. rewrite Hgen.
  match goal with
  | |- context [completions_create ?c ?b] =>
      destruct (completions_create c b) as [completion|e];
        [destruct (first_content completion) as [v|e]|]
  end; cbn [snd]; rewrite ?extend_extend; eexists; (split; [done|]);
    (split; [reflexivity | reflexivity]).
Qed.

Lemma analyzeTimetable_undefined_serialization_witness :
  let w := module_load {["OPENAI_API_KEY" := "sk-test"]} in
  requests (w_trace (analyzeTimetable (R := answering "Nothing to analyze")
                       JUndefined JUndefined w).2)
  = [JObj [("model", JStr "gpt-4o-mini");
           ("messages",
            JArr [JObj [("role", JStr "user");
                        ("content", JStr "Provide a general analysis of this timetable data: undefined")]]);
           ("max_tokens", JNum num_1000);
           ("temperature", JNum num_0_7)]].
Proof.
  intros w.
  destruct (analyzeTimetable_undefined_serialization (R := answering "Nothing to analyze")
              JUndefined JUndefined w eq_refl) as (template & logged & _ & _ & _).
  reflexivity.
Defined.
